(** * ldirectory.py: attribute decoders and the Active Directory view

    A shallow embedding of [src/ldirectory.py].  Python values are modelled
    as the program uses them: [str] as a sequence of code points, [bytes] as
    a sequence of octets, [dict] as a finite map (or, where the program
    iterates over it, as the list of its items in iteration order, which for
    CPython 3.7 and later is the order of definition), exceptions as an
    explicit outcome.  The interpreter's builtins, the byte order of the
    host and the ldap3 library are collaborators of the program: they are
    parameters of the model, as are the tables of [ldap_utils], which the
    program imports. *)

From Stdlib Require Import ZArith NArith List Ascii String Lia Bool.
From stdpp Require Import base option list countable gmap.
Import ListNotations.
Local Open Scope N_scope.

(* ===================================================================== *)
(** ** Python values *)
(* ===================================================================== *)

Module Py.

(** A [str] is a sequence of Unicode code points. *)
Abbreviation pystr := (list N).

(** The [str] written as an ASCII literal in the source. *)
Definition ustr (s : string) : pystr :=
  map N_of_ascii (list_ascii_of_string s).
Arguments ustr : simpl never.

(** [sep.join(parts)] *)
Fixpoint join (sep : pystr) (parts : list pystr) : pystr :=
  match parts with
  | [] => []
  | [p] => p
  | p :: ps => p ++ sep ++ join sep ps
  end.

(** The values that reach the decoders as [raw_value]. *)
Inductive pyval :=
| VNone
| VBool (b : bool)
| VInt (z : Z)
| VBytes (bs : list Byte.byte)
| VStr (s : pystr).

(** The exceptions of ldap3 that the program meets: an operation result
    (the class [LDAPOperationResult] and its per-result-code subclasses, of
    which [LDAPNoSuchObjectResult] is one) or a communication failure, which
    is not an operation result. *)
Inductive ldap_error :=
| LDAPOperationResult (code : Z)
| LDAPNoSuchObjectResult
| LDAPCommunicationError.

(** Exceptions, by class.  Every class below derives from [Exception].
    [ActiveDirectoryLdapException] carries its constructor's argument: a
    message or the ldap3 exception it wraps. *)
Inductive exn :=
| TypeError
| ValueError
| OverflowError
| KeyError
| NameError (name : string)
| AttributeError (attr : string)
| OSError
| StructError
| UnicodeDecodeError
| LDAPError (e : ldap_error)
| ActiveDirectoryLdapException (arg : string + ldap_error)
| ActiveDirectoryLdapInvalidSID (msg : pystr)
| ActiveDirectoryLdapInvalidGUID (msg : pystr).

(** [isinstance(e, Exception)] *)
Definition is_Exception (e : exn) : bool := true.

(** [isinstance(e, (TypeError, ValueError))]; in CPython
    [UnicodeDecodeError] derives from [ValueError]. *)
Definition is_TypeError_or_ValueError (e : exn) : bool :=
  match e with
  | TypeError | ValueError | UnicodeDecodeError => true
  | _ => false
  end.

(** [isinstance(e, LDAPOperationResult)] *)
Definition is_LDAPOperationResult (e : ldap_error) : bool :=
  match e with
  | LDAPOperationResult _ | LDAPNoSuchObjectResult => true
  | LDAPCommunicationError => false
  end.

(** The outcome of evaluating an expression or a call. *)
Inductive result (A : Type) :=
| Return (a : A)
| Raise (e : exn).
Arguments Return {A} a.
Arguments Raise {A} e.

(** Sequencing: an exception raised by the first statement propagates. *)
#[export] Instance result_ret : MRet result := @Return.
#[export] Instance result_bind : MBind result := λ A B k m,
  match m with
  | Return a => k a
  | Raise e => Raise e
  end.

End Py.

Import Py.

(* ===================================================================== *)
(** ** The interpreter and the tables of [ldap_utils] *)
(* ===================================================================== *)

Inductive byteorder := LittleEndian | BigEndian.

(** What the program takes from the interpreter it runs on.
    [sys_byteorder] is the byte order of the host, which [struct]'s native
    formats follow; [int] is the builtin [int(x)]; [ucd_getcode] is the
    Unicode name lookup behind the [\N{...}] escape of the
    [unicode-escape] codec. *)
Record interpreter := {
  sys_byteorder : byteorder;
  int : pyval → result Z;
  ucd_getcode : list Byte.byte → option N
}.

(** [ldap_utils] is imported by the program and is not part of the
    sources: its three tables are parameters.  The two tables the program
    iterates over are given as their [items()], in iteration order. *)
Record ldap_utils := {
  DNS_TYPES : list (pystr * Z);
  USER_ACCOUNT_CONTROL : list (pystr * Z);
  WELL_KNOWN_SIDs : gmap (list N) (list N)
}.

(* ===================================================================== *)
(** ** The decoders *)
(* ===================================================================== *)

Module Decoders.

(** The loop of [format_userAccountControl]:
    [for k, v in USER_ACCOUNT_CONTROL.items(): if v & val: result.append(k)] *)
Fixpoint uac_loop (items : list (pystr * Z)) (val : Z) (result : list pystr)
  : list pystr :=
  match items with
  | [] => result
  | (k, v) :: rest =>
      if Z.eqb (Z.land v val) 0 then uac_loop rest val result
      else uac_loop rest val (result ++ [k])
  end.

(** The [try] block of [format_userAccountControl]. *)
Definition format_userAccountControl_try (py : interpreter) (lu : ldap_utils)
    (raw_value : pyval) : result pyval :=
  val ← int py raw_value;
  let result := uac_loop (USER_ACCOUNT_CONTROL lu) val [] in
  Return (VStr (join (ustr " | ") result)).

Definition format_userAccountControl (py : interpreter) (lu : ldap_utils)
    (raw_value : pyval) : result pyval :=
  match format_userAccountControl_try py lu raw_value with
  | Return v => Return v
  | Raise e =>
      if is_TypeError_or_ValueError e then Return raw_value (* pass *)
      else if is_Exception e then Return raw_value          (* pass *)
      else Raise e
  end.

(** *** [struct.unpack("HH", ...)] *)

(** An unsigned 16-bit field of two octets, in the given byte order. *)
Definition u16 (order : byteorder) (b0 b1 : Byte.byte) : Z :=
  match order with
  | LittleEndian => Z.of_N (Byte.to_N b0 + 256 * Byte.to_N b1)
  | BigEndian => Z.of_N (256 * Byte.to_N b0 + Byte.to_N b1)
  end.

(** The format has no byte-order prefix: both fields are read in the byte
    order of the host.  Any buffer that is not exactly four octets long is
    refused with [struct.error]. *)
Definition unpack_HH (py : interpreter) (databytes : list Byte.byte)
  : result (Z * Z) :=
  match databytes with
  | [b0; b1; b2; b3] =>
      Return (u16 (sys_byteorder py) b0 b1, u16 (sys_byteorder py) b2 b3)
  | _ => Raise StructError
  end.

(** *** [socket.inet_ntoa] *)

Definition digit (d : N) : N := 48 + d.

(** The decimal numeral of an octet. *)
Definition dec_octet (b : Byte.byte) : pystr :=
  let n := Byte.to_N b in
  if n <? 10 then [digit n]
  else if n <? 100 then [digit (n / 10); digit (n mod 10)]
  else [digit (n / 100); digit ((n / 10) mod 10); digit (n mod 10)].

(** A packed address must be exactly four octets long, else [OSError]. *)
Definition inet_ntoa (data : list Byte.byte) : result pystr :=
  match data with
  | [a; b; c; d] =>
      Return (dec_octet a ++ [46] ++ dec_octet b ++ [46]
              ++ dec_octet c ++ [46] ++ dec_octet d)
  | _ => Raise OSError
  end.

(** *** [bytes.decode('unicode-escape')]

    CPython's decoder, with the default [strict] error handling, as a
    machine that reads one octet at a time.  An octet other than a backslash
    stands for the code point of the same value.  A backslash starts an
    escape: a line feed (dropped), one of the single-character escapes, up
    to three octal digits, [x], [u] or [U] followed by exactly two, four or
    eight hexadecimal digits, or [N{name}]; before any other octet the
    backslash is kept.  A truncated or malformed escape raises
    [UnicodeDecodeError]. *)

Inductive ue_state :=
| UeText                                  (* outside an escape *)
| UeBackslash                             (* just after a backslash *)
| UeOctal (ndigits : nat) (ch : N)        (* digits read so far, at most 2 *)
| UeHex (count : nat) (ch : N)            (* [count] digits still to read *)
| UeNameOpen                              (* after [\N], expecting a brace *)
| UeName (name : list Byte.byte).         (* inside [\N{] *)

Definition is_octal (c : N) : bool := (48 <=? c) && (c <=? 55).

Definition hex_value (c : N) : option N :=
  if (48 <=? c) && (c <=? 57) then Some (c - 48)
  else if (97 <=? c) && (c <=? 102) then Some (c - 87)
  else if (65 <=? c) && (c <=? 70) then Some (c - 55)
  else None.

Definition MAX_UNICODE : N := 1114111.

(** One octet outside an escape. *)
Definition ue_text (c : N) : ue_state * pystr :=
  if c =? 92 then (UeBackslash, []) else (UeText, [c]).

(** The octet after a backslash. *)
Definition ue_backslash (c : N) : ue_state * pystr :=
  if c =? 10 then (UeText, [])
  else if c =? 92 then (UeText, [92])
  else if c =? 39 then (UeText, [39])
  else if c =? 34 then (UeText, [34])
  else if c =? 98 then (UeText, [8])
  else if c =? 102 then (UeText, [12])
  else if c =? 116 then (UeText, [9])
  else if c =? 110 then (UeText, [10])
  else if c =? 114 then (UeText, [13])
  else if c =? 118 then (UeText, [11])
  else if c =? 97 then (UeText, [7])
  else if is_octal c then (UeOctal 1 (c - 48), [])
  else if c =? 120 then (UeHex 2 0, [])
  else if c =? 117 then (UeHex 4 0, [])
  else if c =? 85 then (UeHex 8 0, [])
  else if c =? 78 then (UeNameOpen, [])
  else (UeText, [92; c]).

(** One step of the machine: the next state and the code points written,
    or no step when the decoder fails. *)
Definition ue_step (py : interpreter) (st : ue_state) (b : Byte.byte)
  : option (ue_state * pystr) :=
  let c := Byte.to_N b in
  match st with
  | UeText => Some (ue_text c)
  | UeBackslash => Some (ue_backslash c)
  | UeOctal n ch =>
      if is_octal c then
        let ch' := 8 * ch + (c - 48) in
        match n with
        | 1%nat => Some (UeOctal 2 ch', [])
        | _ => Some (UeText, [ch'])
        end
      else
        let '(st', out) := ue_text c in Some (st', ch :: out)
  | UeHex count ch =>
      match hex_value c with
      | None => None
      | Some d =>
          let ch' := 16 * ch + d in
          match count with
          | O | 1%nat =>
              if MAX_UNICODE <? ch' then None else Some (UeText, [ch'])
          | S count' => Some (UeHex count' ch', [])
          end
      end
  | UeNameOpen => if c =? 123 then Some (UeName [], []) else None
  | UeName name =>
      if c =? 125 then
        match name with
        | [] => None
        | _ => match ucd_getcode py name with
               | Some ch => Some (UeText, [ch])
               | None => None
               end
        end
      else Some (UeName (name ++ [b]), [])
  end.

(** The end of the input: an octal escape is complete, any other escape
    is truncated. *)
Definition ue_finish (st : ue_state) : option pystr :=
  match st with
  | UeText => Some []
  | UeOctal _ ch => Some [ch]
  | _ => None
  end.

Fixpoint ue_run (py : interpreter) (st : ue_state) (s : list Byte.byte)
  : option pystr :=
  match s with
  | [] => ue_finish st
  | b :: s' =>
      match ue_step py st b with
      | None => None
      | Some (st', out) =>
          match ue_run py st' s' with
          | None => None
          | Some rest => Some (out ++ rest)
          end
      end
  end.

Definition decode_unicode_escape (py : interpreter) (data : list Byte.byte)
  : result pystr :=
  match ue_run py UeText data with
  | Some s => Return s
  | None => Raise UnicodeDecodeError
  end.

(** *** [format_dnsrecord] *)

(** [ord(c) > 31 or ord(c) == 9] *)
Definition keep_char (c : N) : bool := (31 <? c) || (c =? 9).

(** The value rendered for the record type that matched. *)
Definition dns_target (py : interpreter) (recordname : pystr)
    (data : list Byte.byte) : result pystr :=
  if bool_decide (recordname = ustr "A") then inet_ntoa data
  else
    data' ← decode_unicode_escape py data;
    Return (List.filter keep_char data').

(** The loop over [DNS_TYPES.items()]: the first entry whose code equals
    [datatype] decides the result; when none does the function falls off
    its end and returns [None]. *)
Fixpoint dns_loop (py : interpreter) (items : list (pystr * Z))
    (datatype : Z) (data : list Byte.byte) : result pyval :=
  match items with
  | [] => Return VNone
  | (recordname, recordvalue) :: rest =>
      if Z.eqb recordvalue datatype then
        target ← dns_target py recordname data;
        Return (VStr (recordname ++ ustr " " ++ target))
      else dns_loop py rest datatype data
  end.

Definition format_dnsrecord (py : interpreter) (lu : ldap_utils)
    (raw_value : list Byte.byte) : result pyval :=
  let databytes := take 4 raw_value in
  '(datalen, datatype) ← unpack_HH py databytes;
  let data := take (Z.to_nat datalen) (drop 24 raw_value) in
  dns_loop py (DNS_TYPES lu) datatype data.

(** *** The terms of the specification *)

(** The flag names the table gives for [val]: the names whose bit value
    shares a set bit with [val], in the order of the table. *)
Definition flags_of (items : list (pystr * Z)) (val : Z) : list pystr :=
  map fst (List.filter (λ kv, negb (Z.eqb (Z.land (snd kv) val) 0)) items).

(** What the codec gives for a data segment when every octet stands for
    the code point of the same value, after the filter of the decoder. *)
Definition octetwise (data : list Byte.byte) : pystr :=
  List.filter keep_char (map Byte.to_N data).

End Decoders.

(* ===================================================================== *)
(** ** The directory and the view built on it *)
(* ===================================================================== *)

Module View.

(** A record handed back by [query]: the attributes of one entry. *)
Abbreviation record := (gmap (list N) pyval).

(** What the paged search of ldap3 yields.  A search result entry carries
    the keys ["dn"] and ["attributes"]; a search result reference carries
    ["uri"] and no ["dn"]. *)
Inductive entry :=
| SearchResEntry (dn : pystr) (attributes : record)
| SearchResRef (uri : list pystr).

(** The generator returned by [paged_search(..., generator=True)]: each
    [next] yields an entry, ends the iteration, or raises. *)
Inductive paged_gen :=
| GenStop
| GenYield (e : entry) (rest : paged_gen)
| GenRaise (e : exn).

(** A search scope: [SUBTREE] or one of the others. *)
Inductive ldap_scope := SUBTREE | BASE | LEVEL.

Inductive connection :=
| ConnectionKerberos (server : pystr)
| ConnectionNTLM (server user password : pystr).

(** The calls the program makes outside itself, in the order made. *)
Inductive event :=
| EvConnection (c : connection)
| EvBind (c : connection)
| EvPagedSearch (c : connection) (search_base search_filter : pystr)
    (search_scope : ldap_scope) (attributes : list pystr) (paged_size : Z)
| EvInfo (username : pystr) (dn : pyval)
| EvUnlockAccount (c : connection) (dn : pyval).

(** The ldap3 library and the server behind it. *)
Record ldap3 := {
  bind : connection → result bool;
  paged_search : connection → pystr → pystr → ldap_scope → paged_gen;
  ad_unlock_account : connection → pyval → result pyval;
  validate_sid : pystr → result bool;
  validate_guid : pystr → result bool
}.

(** A computation that calls out: its outcome and the calls it made. *)
Definition io (A : Type) : Type := result A * list event.

#[export] Instance io_ret : MRet io := λ A a, (Return a, []).
#[export] Instance io_bind : MBind io := λ A B k m,
  match m with
  | (Return a, t) => let '(r, t') := k a in (r, t ++ t')
  | (Raise e, t) => (Raise e, t)
  end.

Definition call {A} (ev : event) (r : result A) : io A := (r, [ev]).
Definition pure {A} (r : result A) : io A := (r, []).

(** The names bound at the top level of the module, by its imports,
    assignments, function definitions and class statement.  The exception
    classes are attributes of [ActiveDirectoryView] and are not among them. *)
Definition module_globals : list string :=
  [ "unpack"; "inet_ntoa"; "ALL_ATTRIBUTES"; "ALL_OPERATIONAL_ATTRIBUTES";
    "Server"; "Connection"; "SASL"; "KERBEROS"; "NTLM"; "SUBTREE"; "ALL";
    "format_sid"; "format_uuid"; "format_ad_timestamp";
    "validate_sid"; "validate_guid";
    "LDAPNoSuchObjectResult"; "LDAPOperationResult"; "ad_unlock_account";
    "DNS_TYPES"; "USER_ACCOUNT_CONTROL"; "WELL_KNOWN_SIDs";
    "PAGE_SIZE"; "format_userAccountControl"; "format_dnsrecord";
    "ldap3"; "ActiveDirectoryView" ]%string.

(** A bare name in a method body is looked up among the function's locals,
    then the module's globals (the builtins hold none of the names below);
    the body of the enclosing class is not searched. *)
Definition global_name (name : string) : result () :=
  if bool_decide (name ∈ module_globals) then Return ()
  else Raise (NameError name).

(** An object bound at the top level of the module, known to the model by
    the name that holds it. *)
Inductive global_object := GlobalObject (name : string).

(** Loading a bare name in a method body: the object the module binds to
    it, or the [NameError]. *)
Definition load_global (name : string) : result global_object :=
  _ ← global_name name; Return (GlobalObject name).

(** What the interpreter makes of a method call on a module-level object:
    [format_username obj u] is the outcome of [obj.format(username=u)]. *)
Record objects := {
  format_username : global_object → pystr → result pystr
}.

Definition PAGE_SIZE : Z := 1000.
Definition ALL_ATTRIBUTES : pystr := ustr "*".
Definition ALL_OPERATIONAL_ATTRIBUTES : pystr := ustr "+".

(** The attributes of a constructed [ActiveDirectoryView]. *)
Record view := {
  username : pystr;
  password : pystr;
  server : pystr;
  fqdn : pystr;
  hostnames : list pystr;
  ldap : connection;
  base_dn : pystr;
  search_scope : ldap_scope
}.

(** [fqdn.split(".")] *)
Fixpoint split_dot (s : pystr) (cur : pystr) : list pystr :=
  match s with
  | [] => [cur]
  | c :: s' => if c =? 46 then cur :: split_dot s' [] else split_dot s' (cur ++ [c])
  end.

(** [x or y] on strings: the empty string is false. *)
Definition str_or (x y : pystr) : pystr :=
  match x with [] => y | _ => x end.

(** [ActiveDirectoryView.__init__].  [self.ldap] is assigned in the two
    branches on [method] only; reading it when neither ran finds no such
    attribute on the instance or its class. *)
Definition init (l3 : ldap3) (server fqdn base username password method : pystr)
  : io view :=
  self_ldap ←
    (if bool_decide (method = ustr "Kerberos") then
       let c := ConnectionKerberos server in
       call (EvConnection c) (Return (Some c))
     else if bool_decide (method = ustr "NTLM") then
       let c := ConnectionNTLM server (fqdn ++ [92] ++ username) password in
       call (EvConnection c) (Return (Some c))
     else mret None);
  c ← pure (match self_ldap with
            | Some c => Return c
            | None => Raise (AttributeError "ldap")
            end);
  bound ← call (EvBind c) (bind l3 c);
  _ ← pure (if negb bound then
              _ ← global_name "ActiveDirectoryLdapException";
              Raise (ActiveDirectoryLdapException
                       (inl "Unable to bind with provided information"%string))
            else Return ());
  mret {| username := username; password := password; server := server;
          fqdn := fqdn; hostnames := [];
          ldap := c;
          base_dn := str_or base
            (join (ustr ",") (map (λ d, ustr "dc=" ++ d) (split_dot fqdn [])));
          search_scope := SUBTREE |}.

(** The [for] loop of [query].  [d] is the attributes dictionary of the
    entry, which the assignment of ["dn"] updates in place; each entry owns
    its dictionary, so the update shows in the record of that entry alone. *)
Fixpoint query_loop (entry_generator : paged_gen) (result_set : list record)
  : result (list record) :=
  match entry_generator with
  | GenStop => Return result_set
  | GenYield entry rest =>
      match entry with
      | SearchResEntry dn attributes =>
          let d := <[ustr "dn" := VStr dn]> attributes in
          query_loop rest (result_set ++ [d])
      | SearchResRef _ => query_loop rest result_set
      end
  | GenRaise e => Raise e
  end.

(** [base or self.base_dn] and [scope or self.search_scope]: [None] and
    the empty string are false. *)
Definition search_base_of (self : view) (base : option pystr) : pystr :=
  str_or (default [] base) (base_dn self).

Definition search_scope_of (self : view) (scope : option ldap_scope)
  : ldap_scope :=
  default (search_scope self) scope.

(** The call of [paged_search] that [query] makes. *)
Definition search_event (self : view) (ldapfilter : pystr)
    (attributes : list pystr) (base : option pystr) (scope : option ldap_scope)
  : event :=
  EvPagedSearch (ldap self) (search_base_of self base) ldapfilter
    (search_scope_of self scope) attributes PAGE_SIZE.

(** The generator that call returns. *)
Definition search_generator (l3 : ldap3) (self : view) (ldapfilter : pystr)
    (base : option pystr) (scope : option ldap_scope) : paged_gen :=
  paged_search l3 (ldap self) (search_base_of self base) ldapfilter
    (search_scope_of self scope).

(** [ActiveDirectoryView.query]; [base] and [scope] default to [None].
    An exception that is an [LDAPOperationResult] is replaced by
    [self.ActiveDirectoryLdapException(e)]; any other propagates. *)
Definition query (l3 : ldap3) (self : view) (ldapfilter : pystr)
    (attributes : list pystr) (base : option pystr) (scope : option ldap_scope)
  : io (list record) :=
  call (search_event self ldapfilter attributes base scope)
    (match query_loop (search_generator l3 self ldapfilter base scope) [] with
     | Return result_set => Return result_set
     | Raise (LDAPError e) =>
         if is_LDAPOperationResult e
         then Raise (ActiveDirectoryLdapException (inr e))
         else Raise (LDAPError e)
     | Raise e => Raise e
     end).

Definition ALL : list pystr := [ALL_ATTRIBUTES; ALL_OPERATIONAL_ATTRIBUTES].

(** What [resolve_sid] returns: the name of a well-known SID, or the
    records found in the directory. *)
Inductive sid_answer :=
| WellKnownName (name : pystr)
| Records (results : list record).

(** ["(&(ObjectSid={sid}))".format(sid=sid)] *)
Definition sid_filter (sid : pystr) : pystr :=
  ustr "(&(ObjectSid=" ++ sid ++ ustr "))".

(** [self.ActiveDirectoryLdapInvalidSID("SID: {sid}".format(sid=sid))] *)
Definition invalid_sid (sid : pystr) : exn :=
  ActiveDirectoryLdapInvalidSID (ustr "SID: " ++ sid).

(** [ActiveDirectoryView.resolve_sid] *)
Definition resolve_sid (lu : ldap_utils) (l3 : ldap3) (self : view)
    (sid : pystr) : io sid_answer :=
  match WELL_KNOWN_SIDs lu !! sid with
  | Some name => mret (WellKnownName name)
  | None =>
      valid ← pure (validate_sid l3 sid);
      found ←
        (if valid : bool then
           results ← query l3 self (sid_filter sid) ALL None None;
           match results with
           | [] => mret None
           | _ => mret (Some results)
           end
         else mret None);
      match found with
      | Some results => mret (Records results)
      | None => pure (Raise (invalid_sid sid))
      end
  end.

(** [ActiveDirectoryView.resolve_guid] *)
Definition resolve_guid (l3 : ldap3) (self : view) (guid : pystr)
  : io (list record) :=
  valid ← pure (validate_guid l3 guid);
  found ←
    (if valid : bool then
       results ← query l3 self
         (ustr "(&(ObjectGUID=" ++ guid ++ ustr "))") ALL None None;
       match results with
       | [] => mret None
       | _ => mret (Some results)
       end
     else mret None);
  match found with
  | Some results => mret results
  | None => pure (Raise (ActiveDirectoryLdapInvalidGUID (ustr "GUID: " ++ guid)))
  end.

(** [isinstance(v, bool)] *)
Definition is_bool (v : pyval) : bool :=
  match v with VBool _ => true | _ => false end.

(** [ActiveDirectoryView.unlock].  The names [USER_DN_FILTER], at line 187,
    and [info], at line 192, are bare names like any other: each is loaded
    before the call it belongs to is made, the first before the search, the
    second before its argument is built. *)
Definition unlock (ob : objects) (l3 : ldap3) (self : view) (username : pystr)
  : io bool :=
  USER_DN_FILTER ← pure (load_global "USER_DN_FILTER");
  ldapfilter ← pure (format_username ob USER_DN_FILTER username);
  results ← query l3 self ldapfilter ALL None None;
  match results with
  | [user] =>
      _ ← pure (load_global "info");
      dn ← pure (match user !! ustr "dn" with
                 | Some dn => Return dn
                 | None => Raise KeyError
                 end);
      _ ← call (EvInfo username dn) (Return ());
      unlock ← call (EvUnlockAccount (ldap self) dn)
                 (ad_unlock_account l3 (ldap self) dn);
      if is_bool unlock then mret true else mret false
  | _ =>
      pure (_ ← global_name "ActiveDirectoryLdapException";
            Raise (ActiveDirectoryLdapException
                     (inl "Zero or non uniq result"%string)))
  end.

(** *** The terms of the specification *)

(** A generator that yields the entries [es] and then behaves as [last]. *)
Definition yields (es : list entry) (last : paged_gen) : paged_gen :=
  foldr GenYield last es.

(** The distinguished name in the envelope of an entry, if it has one. *)
Definition envelope_dn (e : entry) : option pystr :=
  match e with
  | SearchResEntry dn _ => Some dn
  | SearchResRef _ => None
  end.

(** The record of an entry that carries a distinguished name: its
    attributes, with the key ["dn"] set from the envelope. *)
Definition record_of (e : entry) : option record :=
  match e with
  | SearchResEntry dn attributes => Some (<[ustr "dn" := VStr dn]> attributes)
  | SearchResRef _ => None
  end.

End View.

(* ===================================================================== *)
(** ** The registration of the decoders *)
(* ===================================================================== *)

Module Formatters.

(** A decoding function of the table of ldap3: one of the two the program
    defines, or one that ldap3 brought. *)
Inductive formatter :=
| FormatUserAccountControl
| FormatDnsRecord
| Ldap3Formatter (name : string).

(** [ldap3.protocol.formatters.standard.standard_formatter]: from the OID
    of an attribute type to its decoding function and its validating
    function, which may be [None]. *)
Abbreviation formatter_table := (gmap (list N) (formatter * option string)).

Definition OID_userAccountControl : pystr := ustr "1.2.840.113556.1.4.8".
Definition OID_dnsRecord : pystr := ustr "1.2.840.113556.1.4.382".

(** The two assignments the module makes when it is imported. *)
Definition register (standard_formatter : formatter_table) : formatter_table :=
  let t1 := <[OID_userAccountControl := (FormatUserAccountControl, None)]>
              standard_formatter in
  <[OID_dnsRecord := (FormatDnsRecord, None)]> t1.

End Formatters.

(* ===================================================================== *)
(** ** Further terms of the properties *)
(* ===================================================================== *)

Module Terms.

(** A data segment written with every backslash doubled. *)
Definition double_backslashes (data : list Byte.byte) : list Byte.byte :=
  flat_map (λ b, if Byte.to_N b =? 92 then [b; b] else [b]) data.

(** The octet of the backslash. *)
Definition backslash : Byte.byte := Byte.x5c.

(** Whether an entry carries a distinguished name. *)
Definition has_dn (e : View.entry) : bool :=
  match e with
  | View.SearchResEntry _ _ => true
  | View.SearchResRef _ => false
  end.

(** A record and the entry it was made from: the key ["dn"] holds the
    distinguished name of the envelope, every other key what the
    attributes of the entry held. *)
Definition record_matches (r : View.record) (e : View.entry) : Prop :=
  ∃ dn attributes,
    e = View.SearchResEntry dn attributes
    ∧ r !! ustr "dn" = Some (VStr dn)
    ∧ ∀ k, k ≠ ustr "dn" → r !! k = attributes !! k.

(** The default base of the searches for a domain of the given labels. *)
Definition dc_of_labels (labels : list pystr) : pystr :=
  join (ustr ",") (map (λ d, ustr "dc=" ++ d) labels).

(** The connection the constructor creates for each method it knows. *)
Inductive connection_for (server fqdn username password : pystr)
  : pystr → View.connection → Prop :=
| connection_for_kerberos :
    connection_for server fqdn username password (ustr "Kerberos")
      (View.ConnectionKerberos server)
| connection_for_ntlm :
    connection_for server fqdn username password (ustr "NTLM")
      (View.ConnectionNTLM server (fqdn ++ [92] ++ username) password).

End Terms.

(* ===================================================================== *)
(** ** Instances for the examples *)
(* ===================================================================== *)

Module Sample.

(** The octet of a number below 256. *)
Definition octet (n : N) : Byte.byte := default Byte.x00 (Byte.of_N n).

Definition octets (s : string) : list Byte.byte :=
  map (λ a, octet (N_of_ascii a)) (list_ascii_of_string s).

(** The builtin [int] on the values of the model, for ASCII numerals
    without underscores or surrounding blanks: an integer is itself, a
    boolean is 0 or 1, [None] is a [TypeError], a [bytes] or [str] that is
    an optionally signed run of ASCII digits is its value, and any other
    text is a [ValueError]. *)
Fixpoint digits_value (s : list N) (acc : Z) : option Z :=
  match s with
  | [] => Some acc
  | c :: s' =>
      if (48 <=? c) && (c <=? 57)
      then digits_value s' (10 * acc + Z.of_N (c - 48))%Z
      else None
  end.

Definition numeral_value (s : list N) : result Z :=
  let '(neg, body) :=
    match s with
    | 45 :: s' => (true, s')
    | 43 :: s' => (false, s')
    | _ => (false, s)
    end in
  match body with
  | [] => Raise ValueError
  | _ => match digits_value body 0 with
         | Some v => Return (if neg : bool then (- v)%Z else v)
         | None => Raise ValueError
         end
  end.

Definition ascii_int (v : pyval) : result Z :=
  match v with
  | VNone => Raise TypeError
  | VBool b => Return (if b then 1 else 0)%Z
  | VInt z => Return z
  | VBytes bs => numeral_value (map Byte.to_N bs)
  | VStr s => numeral_value s
  end.

(** An interpreter on a host of the given byte order; its name lookup
    knows one character. *)
Definition host (order : byteorder) : interpreter :=
  {| sys_byteorder := order;
     int := ascii_int;
     ucd_getcode := λ name,
       if bool_decide (map Byte.to_N name = ustr "BULLET") then Some 8226
       else None |}.

(** A few of the entries Active Directory documents for each table. *)
Definition tables : ldap_utils :=
  {| DNS_TYPES :=
       [ (ustr "ZERO", 0); (ustr "A", 1); (ustr "NS", 2); (ustr "CNAME", 5);
         (ustr "SOA", 6); (ustr "MX", 15); (ustr "TXT", 16);
         (ustr "AAAA", 28); (ustr "SRV", 33) ]%Z;
     USER_ACCOUNT_CONTROL :=
       [ (ustr "SCRIPT", 1); (ustr "ACCOUNTDISABLE", 2);
         (ustr "HOMEDIR_REQUIRED", 8); (ustr "LOCKOUT", 16);
         (ustr "PASSWD_NOTREQD", 32); (ustr "PASSWD_CANT_CHANGE", 64);
         (ustr "NORMAL_ACCOUNT", 512);
         (ustr "DONT_EXPIRE_PASSWORD", 65536) ]%Z;
     WELL_KNOWN_SIDs :=
       {[ ustr "S-1-0-0" := ustr "Nobody";
          ustr "S-1-1-0" := ustr "Everyone";
          ustr "S-1-5-18" := ustr "Local System" ]} |}.

(** A DNS record blob: the two header fields as given octets, twenty
    further header octets, then the data. *)
Definition blob (l0 l1 t0 t1 : N) (data : list Byte.byte) : list Byte.byte :=
  [octet l0; octet l1; octet t0; octet t1] ++ replicate 20 Byte.x00 ++ data.

(** A directory whose every search yields the given generator and whose
    unlock operation gives the given result; it binds every connection and
    takes for a SID what starts with ["S-"]. *)
Definition directory (gen : View.paged_gen) (unlocked : result pyval)
  : View.ldap3 :=
  {| View.bind := λ _, Return true;
     View.paged_search := λ _ _ _ _, gen;
     View.ad_unlock_account := λ _ _, unlocked;
     View.validate_sid := λ sid, Return (bool_decide (take 2 sid = ustr "S-"));
     View.validate_guid := λ _, Return true |}.

(** A directory that refuses every bind. *)
Definition refusing : View.ldap3 :=
  {| View.bind := λ _, Return false;
     View.paged_search := λ _ _ _ _, View.GenStop;
     View.ad_unlock_account := λ _ _, Return (VBool true);
     View.validate_sid := λ _, Return true;
     View.validate_guid := λ _, Return true |}.

Definition a_view : View.view :=
  {| View.username := ustr "alice"; View.password := ustr "secret";
     View.server := ustr "dc01.corp.example"; View.fqdn := ustr "corp.example";
     View.hostnames := [];
     View.ldap := View.ConnectionNTLM (ustr "dc01.corp.example")
                    (ustr "corp.example\alice") (ustr "secret");
     View.base_dn := ustr "dc=corp,dc=example";
     View.search_scope := View.SUBTREE |}.

(** Objects whose [format] fills a search filter with the user name. *)
Definition objects : View.objects :=
  {| View.format_username := λ _ username,
       Return (ustr "(&(objectClass=user)(sAMAccountName=" ++ username
               ++ ustr "))") |}.

Definition bob : View.entry :=
  View.SearchResEntry (ustr "CN=bob,DC=corp,DC=example")
    {[ ustr "cn" := VStr (ustr "bob") ]}.

Definition carol : View.entry :=
  View.SearchResEntry (ustr "CN=carol,DC=corp,DC=example")
    {[ ustr "cn" := VStr (ustr "carol"); ustr "dn" := VStr (ustr "stale") ]}.

Definition referral : View.entry :=
  View.SearchResRef [ustr "ldap://other.example/DC=other,DC=example"].

End Sample.

(* ===================================================================== *)
(** ** Properties of the decoders *)
(* ===================================================================== *)

(** Settles a decidable proposition on closed terms by evaluating its
    decision procedure. *)
Ltac decide_by_evaluation :=
  apply (bool_decide_unpack _); vm_compute; exact I.

Module DecodersFacts.
Import Decoders.

Section account_control.
Context (py : interpreter) (lu : ldap_utils).

Lemma uac_loop_flags items val acc :
  uac_loop items val acc = acc ++ flags_of items val.
Proof.
  revert acc. induction items as [|[k v] rest IH]; intros acc; simpl.
  - by rewrite app_nil_r.
  - unfold flags_of in *. simpl.
    destruct (Z.eqb (Z.land v val) 0); simpl.
    + apply IH.
    + rewrite IH. by rewrite <- app_assoc.
Qed.

Lemma flags_of_elem items val n :
  n ∈ flags_of items val ↔ ∃ v, (n, v) ∈ items ∧ Z.land v val ≠ 0%Z.
Proof.
  unfold flags_of. rewrite list_elem_of_fmap. split.
  - intros [[k v] [-> Hin]]. apply list_elem_of_In, filter_In in Hin.
    destruct Hin as [Hin Hbit]. exists v. split.
    + by apply list_elem_of_In.
    + simpl in Hbit. apply negb_true_iff, Z.eqb_neq in Hbit. done.
  - intros [v [Hin Hbit]]. exists (n, v). split; [done|].
    apply list_elem_of_In, filter_In. split.
    + by apply list_elem_of_In.
    + simpl. by apply negb_true_iff, Z.eqb_neq.
Qed.

Lemma format_userAccountControl_parsed raw v :
  int py raw = Return v →
  format_userAccountControl py lu raw
  = Return (VStr (join (ustr " | ") (flags_of (USER_ACCOUNT_CONTROL lu) v))).
Proof.
  intros Hint. unfold format_userAccountControl, format_userAccountControl_try.
  rewrite Hint. simpl. by rewrite uac_loop_flags.
Qed.

Lemma format_userAccountControl_fallback raw e :
  int py raw = Raise e → format_userAccountControl py lu raw = Return raw.
Proof.
  intros Hint. unfold format_userAccountControl, format_userAccountControl_try.
  rewrite Hint. simpl. by destruct (is_TypeError_or_ValueError e).
Qed.

(** C2. [format_userAccountControl] is total.  When [int(raw_value)] gives
    an integer [v], the result is the [" | "]-join of exactly the flag names
    [n] of the table with [T[n] & v != 0], in the table's order; when
    [int(raw_value)] fails, the input is returned unchanged; the function
    raises for no input. *)
Theorem format_userAccountControl_total (raw : pyval) :
  (∀ v, int py raw = Return v →
     format_userAccountControl py lu raw
     = Return (VStr (join (ustr " | ") (flags_of (USER_ACCOUNT_CONTROL lu) v)))
     ∧ (∀ n, n ∈ flags_of (USER_ACCOUNT_CONTROL lu) v
             ↔ ∃ bit, (n, bit) ∈ USER_ACCOUNT_CONTROL lu ∧ Z.land bit v ≠ 0%Z)
     ∧ flags_of (USER_ACCOUNT_CONTROL lu) v
         `sublist_of` map fst (USER_ACCOUNT_CONTROL lu))
  ∧ (∀ e, int py raw = Raise e →
       format_userAccountControl py lu raw = Return raw)
  ∧ (∃ out, format_userAccountControl py lu raw = Return out).
Proof.
  split; [|split].
  - intros v Hint. split; [by apply format_userAccountControl_parsed|].
    split; [intros n; apply flags_of_elem|].
    unfold flags_of. generalize (USER_ACCOUNT_CONTROL lu).
    intros items. induction items as [|[k b] rest IH]; simpl; [constructor|].
    destruct (negb _); simpl; by constructor.
  - apply format_userAccountControl_fallback.
  - destruct (int py raw) as [v|e] eqn:Hint.
    + eexists. by apply format_userAccountControl_parsed.
    + eexists. by eapply format_userAccountControl_fallback.
Qed.

End account_control.

(** An account-control value of 514 decodes to its two flags, and text that
    is not a numeral comes back as it is. *)
Lemma format_userAccountControl_total_witness :
  format_userAccountControl (Sample.host LittleEndian) Sample.tables
    (VBytes (Sample.octets "514"))
  = Return (VStr (ustr "ACCOUNTDISABLE | NORMAL_ACCOUNT"))
  ∧ format_userAccountControl (Sample.host LittleEndian) Sample.tables
      (VStr (ustr "not-a-number"))
    = Return (VStr (ustr "not-a-number")).
Proof.
  split.
  - pose proof (format_userAccountControl_total (Sample.host LittleEndian)
                  Sample.tables (VBytes (Sample.octets "514"))) as [H _].
    destruct (H 514%Z) as [-> _]; reflexivity.
  - pose proof (format_userAccountControl_total (Sample.host LittleEndian)
                  Sample.tables (VStr (ustr "not-a-number"))) as [_ [H _]].
    apply (H ValueError). reflexivity.
Defined.

Section dns_record.
Context (py : interpreter) (lu : ldap_utils).

Lemma dns_loop_found items datatype data name :
  NoDup items.*2 → (name, datatype) ∈ items →
  dns_loop py items datatype data
  = (target ← dns_target py name data;
     Return (VStr (name ++ ustr " " ++ target))).
Proof.
  induction items as [|[k v] rest IH]; intros Hnd Hin; [by inversion Hin|].
  rewrite fmap_cons in Hnd. apply NoDup_cons in Hnd as [Hv Hnd]. simpl in *.
  apply elem_of_cons in Hin as [Heq|Hin].
  - injection Heq as <- <-. by rewrite Z.eqb_refl.
  - destruct (Z.eqb_spec v datatype) as [->|_].
    + exfalso. apply Hv. apply list_elem_of_fmap. by exists (name, datatype).
    + by apply IH.
Qed.

Lemma dns_loop_absent items datatype data :
  datatype ∉ items.*2 → dns_loop py items datatype data = Return VNone.
Proof.
  induction items as [|[k v] rest IH]; intros Hnot; [done|]. simpl.
  rewrite fmap_cons in Hnot. apply not_elem_of_cons in Hnot as [Hne Hnot].
  simpl in Hne. destruct (Z.eqb_spec v datatype) as [->|_]; [done|].
  by apply IH.
Qed.

(** Without a backslash the codec never leaves its text state. *)
Lemma ue_run_plain data :
  Forall (λ b, Byte.to_N b ≠ 92) data →
  ue_run py UeText data = Some (map Byte.to_N data).
Proof.
  induction 1 as [|b data Hb _ IH]; [done|]. simpl. unfold ue_text.
  apply N.eqb_neq in Hb. rewrite Hb, IH. done.
Qed.

Lemma unpack_HH_header (raw : list Byte.byte) :
  (4 ≤ length raw)%nat →
  ∃ b0 b1 b2 b3, take 4 raw = [b0; b1; b2; b3].
Proof.
  intros Hlen. destruct raw as [|b0 [|b1 [|b2 [|b3 raw]]]]; simpl in Hlen;
    try lia. by exists b0, b1, b2, b3.
Qed.

Lemma format_dnsrecord_header (raw : list Byte.byte) datalen datatype :
  unpack_HH py (take 4 raw) = Return (datalen, datatype) →
  format_dnsrecord py lu raw
  = dns_loop py (DNS_TYPES lu) datatype (take (Z.to_nat datalen) (drop 24 raw)).
Proof. intros Hh. unfold format_dnsrecord. by rewrite Hh. Qed.

Lemma dns_target_A (a b c d : Byte.byte) :
  dns_target py (ustr "A") [a; b; c; d]
  = Return (dec_octet a ++ ustr "." ++ dec_octet b ++ ustr "."
            ++ dec_octet c ++ ustr "." ++ dec_octet d).
Proof. reflexivity. Qed.

(** C3, as amended.  On a little-endian host, whose byte order the native
    format ["HH"] follows, [format_dnsrecord] reads octets 0-1 as the little-endian
    [datalen] and octets 2-3 as the little-endian [datatype], takes the data
    segment [raw_value[24:24+datalen]], and when [datatype] is the code of
    record type ["A"] renders the four data octets as a dotted quad after
    the type name. *)
Theorem format_dnsrecord_A (raw : list Byte.byte) l0 l1 t0 t1 a b c d :
  sys_byteorder py = LittleEndian →
  take 4 raw = [l0; l1; t0; t1] →
  NoDup (DNS_TYPES lu).*2 →
  (ustr "A", Z.of_N (Byte.to_N t0 + 256 * Byte.to_N t1)) ∈ DNS_TYPES lu →
  take (N.to_nat (Byte.to_N l0 + 256 * Byte.to_N l1)) (drop 24 raw)
    = [a; b; c; d] →
  format_dnsrecord py lu raw
  = Return (VStr (ustr "A " ++ dec_octet a ++ ustr "." ++ dec_octet b
                  ++ ustr "." ++ dec_octet c ++ ustr "." ++ dec_octet d)).
Proof.
  intros Hle Hhdr Hnd HA Hdata.
  rewrite (format_dnsrecord_header raw
             (Z.of_N (Byte.to_N l0 + 256 * Byte.to_N l1))
             (Z.of_N (Byte.to_N t0 + 256 * Byte.to_N t1)))
    by (rewrite Hhdr; unfold unpack_HH; by rewrite Hle).
  rewrite (dns_loop_found _ _ _ (ustr "A") Hnd HA).
  replace (Z.to_nat (Z.of_N (Byte.to_N l0 + 256 * Byte.to_N l1)))
    with (N.to_nat (Byte.to_N l0 + 256 * Byte.to_N l1)) by lia.
  rewrite Hdata, dns_target_A. reflexivity.
Qed.

(** C5. For a blob of at least four octets whose decoded [datatype] is the
    code of no entry of the table, [format_dnsrecord] returns [None] and
    does not raise. *)
Theorem format_dnsrecord_unknown_type (raw : list Byte.byte) :
  (4 ≤ length raw)%nat →
  ∃ datalen datatype,
    unpack_HH py (take 4 raw) = Return (datalen, datatype)
    ∧ (datatype ∉ (DNS_TYPES lu).*2 →
       format_dnsrecord py lu raw = Return VNone).
Proof.
  intros Hlen. destruct (unpack_HH_header raw Hlen) as (b0 & b1 & b2 & b3 & Hh).
  exists (u16 (sys_byteorder py) b0 b1), (u16 (sys_byteorder py) b2 b3).
  split; [by rewrite Hh|].
  intros Hnot. rewrite (format_dnsrecord_header raw _ _ ltac:(by rewrite Hh)).
  by apply dns_loop_absent.
Qed.

(** C4, as amended.  For a blob whose [datatype] is the code of a record
    type other than ["A"] and whose data segment holds no backslash, every
    octet of the segment stands for the code point of the same value, the
    code points above 31 and the tab are kept, and the result is the type
    name, a space and the kept characters. *)
Theorem format_dnsrecord_text (raw : list Byte.byte) name datalen datatype :
  unpack_HH py (take 4 raw) = Return (datalen, datatype) →
  NoDup (DNS_TYPES lu).*2 →
  (name, datatype) ∈ DNS_TYPES lu →
  name ≠ ustr "A" →
  Forall (λ b, Byte.to_N b ≠ 92) (take (Z.to_nat datalen) (drop 24 raw)) →
  format_dnsrecord py lu raw
  = Return (VStr (name ++ ustr " "
                  ++ octetwise (take (Z.to_nat datalen) (drop 24 raw)))).
Proof.
  intros Hh Hnd Hin Hname Hplain. rewrite (format_dnsrecord_header raw _ _ Hh).
  rewrite (dns_loop_found _ _ _ name Hnd Hin).
  unfold dns_target. rewrite bool_decide_eq_false_2 by done.
  unfold decode_unicode_escape. by rewrite (ue_run_plain _ Hplain).
Qed.

End dns_record.

(** The blob of an "A" record with four data octets 192, 168, 1, 1. *)
Lemma format_dnsrecord_A_witness :
  format_dnsrecord (Sample.host LittleEndian) Sample.tables
    (Sample.blob 4 0 1 0 (map Sample.octet [192; 168; 1; 1]))
  = Return (VStr (ustr "A 192.168.1.1")).
Proof.
  apply (format_dnsrecord_A (Sample.host LittleEndian) Sample.tables
           (Sample.blob 4 0 1 0 (map Sample.octet [192; 168; 1; 1]))
           (Sample.octet 4) (Sample.octet 0) (Sample.octet 1) (Sample.octet 0)
           (Sample.octet 192) (Sample.octet 168) (Sample.octet 1)
           (Sample.octet 1)).
  - reflexivity.
  - reflexivity.
  - decide_by_evaluation.
  - decide_by_evaluation.
  - reflexivity.
Defined.

(** A blob of unknown type 255 yields [None]. *)
Lemma format_dnsrecord_unknown_type_witness :
  format_dnsrecord (Sample.host LittleEndian) Sample.tables
    (Sample.blob 2 0 255 0 (Sample.octets "ab"))
  = Return VNone.
Proof.
  destruct (format_dnsrecord_unknown_type (Sample.host LittleEndian)
              Sample.tables (Sample.blob 2 0 255 0 (Sample.octets "ab")))
    as (datalen & datatype & Hh & Hnone).
  - vm_compute. lia.
  - injection Hh as <- <-. apply Hnone.
    decide_by_evaluation.
Defined.

(** A "TXT" record whose data holds a NUL, a tab and printable text: the
    NUL is dropped and the tab is kept. *)
Lemma format_dnsrecord_text_witness :
  format_dnsrecord (Sample.host LittleEndian) Sample.tables
    (Sample.blob 4 0 16 0 (map Sample.octet [0; 97; 9; 98]))
  = Return (VStr (ustr "TXT " ++ [97; 9; 98])).
Proof.
  apply (format_dnsrecord_text (Sample.host LittleEndian) Sample.tables
           (Sample.blob 4 0 16 0 (map Sample.octet [0; 97; 9; 98]))
           (ustr "TXT") 4%Z 16%Z).
  - reflexivity.
  - decide_by_evaluation.
  - decide_by_evaluation.
  - decide_by_evaluation.
  - decide_by_evaluation.
Defined.

(** C4, as stated, fails: the data segment [\x41] of a "TXT" record, four
    octets, is decoded to the single character ["A"]; octet by octet it
    would be the four characters of the escape. *)
Lemma format_dnsrecord_text_escape :
  let raw := Sample.blob 4 0 16 0 (Sample.octets "\x41") in
  format_dnsrecord (Sample.host LittleEndian) Sample.tables raw
    = Return (VStr (ustr "TXT A"))
  ∧ format_dnsrecord (Sample.host LittleEndian) Sample.tables raw
    ≠ Return (VStr (ustr "TXT " ++ octetwise (take 4 (drop 24 raw)))).
Proof. split; [reflexivity|]. vm_compute. discriminate. Qed.

(** The codec at work: a named character, an octal escape cut short by
    the end of the data, an escape it does not know, and a backslash with
    nothing after it. *)
Example decode_unicode_escape_named :
  decode_unicode_escape (Sample.host LittleEndian) (Sample.octets "\N{BULLET}x")
  = Return [8226; 120].
Proof. reflexivity. Qed.

Example decode_unicode_escape_octal :
  decode_unicode_escape (Sample.host LittleEndian) (Sample.octets "a\10")
  = Return [97; 8].
Proof. reflexivity. Qed.

Example decode_unicode_escape_unknown :
  decode_unicode_escape (Sample.host LittleEndian) (Sample.octets "\d")
  = Return (ustr "\d").
Proof. reflexivity. Qed.

Example decode_unicode_escape_truncated :
  decode_unicode_escape (Sample.host LittleEndian) (Sample.octets "ab\")
  = Raise UnicodeDecodeError.
Proof. reflexivity. Qed.

(** C3, as stated, fails.  The header is read in the byte order of the
    host: on a big-endian host the blob of the "A" record above, whose
    header holds the little-endian [datalen] 4 and the little-endian code
    of "A", has a type code of 256, which the table does not hold, and the
    decoder returns [None]. *)
Lemma format_dnsrecord_big_endian_host :
  format_dnsrecord (Sample.host BigEndian) Sample.tables
    (Sample.blob 4 0 1 0 (map Sample.octet [192; 168; 1; 1]))
  = Return VNone
  ∧ format_dnsrecord (Sample.host BigEndian) Sample.tables
      (Sample.blob 4 0 1 0 (map Sample.octet [192; 168; 1; 1]))
    ≠ Return (VStr (ustr "A 192.168.1.1")).
Proof. split; [reflexivity|]. vm_compute. discriminate. Qed.

(** An "A" record whose data segment is not four octets long is refused by
    [inet_ntoa], and a blob shorter than its header by [unpack]. *)
Example format_dnsrecord_short_address :
  format_dnsrecord (Sample.host LittleEndian) Sample.tables
    (Sample.blob 3 0 1 0 (map Sample.octet [192; 168; 1]))
  = Raise OSError.
Proof. reflexivity. Qed.

Example format_dnsrecord_short_header :
  format_dnsrecord (Sample.host LittleEndian) Sample.tables
    (map Sample.octet [4; 0; 1])
  = Raise StructError.
Proof. reflexivity. Qed.

End DecodersFacts.

(* ===================================================================== *)
(** ** Properties of the view *)
(* ===================================================================== *)

Module ViewFacts.
Import View.

Section search.
Context (l3 : ldap3) (self : view).
Implicit Types (ldapfilter : pystr) (attributes : list pystr)
  (base : option pystr) (scope : option ldap_scope) (es : list entry)
  (rs : list record).

Lemma query_loop_yields es last acc :
  query_loop (yields es last) acc = query_loop last (acc ++ omap record_of es).
Proof.
  revert acc. induction es as [|[dn attrs|uri] es IH]; intros acc; simpl.
  - by rewrite app_nil_r.
  - rewrite IH. by rewrite <- app_assoc.
  - apply IH.
Qed.

Lemma record_of_dn es :
  Forall (λ r : record, is_Some (r !! ustr "dn")) (omap record_of es)
  ∧ omap (λ r : record, r !! ustr "dn") (omap record_of es)
    = VStr <$> omap envelope_dn es.
Proof.
  induction es as [|[dn attrs|uri] es [IH1 IH2]]; simpl; [done| |done].
  split.
  - constructor; [|done]. rewrite lookup_insert_eq. by eexists.
  - rewrite lookup_insert_eq. f_equal. exact IH2.
Qed.

Lemma query_returns ldapfilter attributes base scope rs :
  query_loop (search_generator l3 self ldapfilter base scope) [] = Return rs →
  query l3 self ldapfilter attributes base scope
  = (Return rs, [search_event self ldapfilter attributes base scope]).
Proof. intros Hloop. unfold query, call. by rewrite Hloop. Qed.

(** C6. When the paged search yields the entries [es] and ends, [query]
    returns the records of exactly the entries that carry a distinguished
    name, in the order of arrival; every returned record has the key ["dn"],
    and its value is the distinguished name of the envelope. *)
Theorem query_keeps_entries_with_dn ldapfilter attributes base scope es :
  search_generator l3 self ldapfilter base scope = yields es GenStop →
  ∃ rs,
    (query l3 self ldapfilter attributes base scope).1 = Return rs
    ∧ rs = omap record_of es
    ∧ length rs = length (List.filter (λ e, bool_decide (is_Some (envelope_dn e))) es)
    ∧ Forall (λ r : record, is_Some (r !! ustr "dn")) rs
    ∧ omap (λ r : record, r !! ustr "dn") rs = VStr <$> omap envelope_dn es.
Proof.
  intros Hgen. exists (omap record_of es).
  assert (query_loop (search_generator l3 self ldapfilter base scope) []
          = Return (omap record_of es)) as Hloop.
  { rewrite Hgen, query_loop_yields. reflexivity. }
  rewrite (query_returns _ attributes _ _ _ Hloop).
  split; [done|]. split; [done|]. split; [|apply record_of_dn].
  clear. induction es as [|[dn attrs|uri] es IH]; simpl; [done| |done].
  f_equal. exact IH.
Qed.

(** C7. When the paged search raises an [LDAPOperationResult], after having
    yielded any entries [es], [query] raises [ActiveDirectoryLdapException]
    wrapping it; nothing is returned. *)
Theorem query_operation_error ldapfilter attributes base scope es e :
  search_generator l3 self ldapfilter base scope
    = yields es (GenRaise (LDAPError e)) →
  is_LDAPOperationResult e = true →
  (query l3 self ldapfilter attributes base scope).1
    = Raise (ActiveDirectoryLdapException (inr e))
  ∧ ∀ rs, (query l3 self ldapfilter attributes base scope).1 ≠ Return rs.
Proof.
  intros Hgen Hop.
  assert ((query l3 self ldapfilter attributes base scope).1
          = Raise (ActiveDirectoryLdapException (inr e))) as Hq.
  { unfold query, call. rewrite Hgen, query_loop_yields. simpl.
    by rewrite Hop. }
  split; [done|]. intros rs. by rewrite Hq.
Qed.

End search.

(** A search that yields an entry, a referral and an entry whose attributes
    already hold a ["dn"]: the referral is skipped, the two records come
    back in order, each with the distinguished name of its envelope. *)
Lemma query_keeps_entries_with_dn_witness :
  (query (Sample.directory
            (yields [Sample.bob; Sample.referral; Sample.carol] GenStop)
            (Return (VBool true)))
     Sample.a_view (ustr "(objectClass=user)") ALL None None).1
  = Return
      [ {[ ustr "cn" := VStr (ustr "bob");
           ustr "dn" := VStr (ustr "CN=bob,DC=corp,DC=example") ]};
        {[ ustr "cn" := VStr (ustr "carol");
           ustr "dn" := VStr (ustr "CN=carol,DC=corp,DC=example") ]} ].
Proof.
  destruct (query_keeps_entries_with_dn
              (Sample.directory
                 (yields [Sample.bob; Sample.referral; Sample.carol] GenStop)
                 (Return (VBool true)))
              Sample.a_view (ustr "(objectClass=user)") ALL None None
              [Sample.bob; Sample.referral; Sample.carol] eq_refl)
    as (rs & -> & -> & _).
  reflexivity.
Defined.

(** A search that fails with an operation result after one entry. *)
Lemma query_operation_error_witness :
  (query (Sample.directory
            (yields [Sample.bob] (GenRaise (LDAPError (LDAPOperationResult 4))))
            (Return (VBool true)))
     Sample.a_view (ustr "(objectClass=user)") ALL None None).1
  = Raise (ActiveDirectoryLdapException (inr (LDAPOperationResult 4))).
Proof.
  apply (query_operation_error
           (Sample.directory
              (yields [Sample.bob]
                 (GenRaise (LDAPError (LDAPOperationResult 4))))
              (Return (VBool true)))
           Sample.a_view (ustr "(objectClass=user)") ALL None None
           [Sample.bob] (LDAPOperationResult 4)); reflexivity.
Defined.

Section resolvers.
Context (lu : ldap_utils) (l3 : ldap3) (self : view).



(** C10. Whatever the [method] other than ["Kerberos"] and ["NTLM"], the
    constructor creates no connection, does not reach [bind], and fails
    with the [AttributeError] of reading [self.ldap]. *)
Theorem init_other_method (server fqdn base username password method : pystr) :
  method ≠ ustr "Kerberos" →
  method ≠ ustr "NTLM" →
  init l3 server fqdn base username password method
  = (Raise (AttributeError "ldap"), []).
Proof.
  intros HK HN. unfold init.
  rewrite (bool_decide_eq_false_2 _ HK), (bool_decide_eq_false_2 _ HN).
  reflexivity.
Qed.

End resolvers.


(** The method ["Simple"] is neither of the two the constructor knows. *)
Lemma init_other_method_witness :
  init (Sample.directory GenStop (Return (VBool true)))
    (ustr "dc01.corp.example") (ustr "corp.example") [] (ustr "alice")
    (ustr "secret") (ustr "Simple")
  = (Raise (AttributeError "ldap"), []).
Proof.
  apply (init_other_method (Sample.directory GenStop (Return (VBool true)))
           (ustr "dc01.corp.example") (ustr "corp.example") [] (ustr "alice")
           (ustr "secret") (ustr "Simple")).
  - vm_compute. discriminate.
  - vm_compute. discriminate.
Defined.

(** C1, on the code.  With exactly one matching record in the directory,
    whether the unlock operation would answer with a diagnostic string or
    with the boolean [False], [unlock] returns no boolean: it raises the
    [NameError] of [USER_DN_FILTER], a name no scope of the method binds,
    before it makes any call. *)
Theorem unlock_one_record_NameError :
  unlock Sample.objects
    (Sample.directory (yields [Sample.bob] GenStop)
       (Return (VStr (ustr "insufficientAccessRights"))))
    Sample.a_view (ustr "bob")
  = (Raise (NameError "USER_DN_FILTER"), [])
  ∧ unlock Sample.objects
      (Sample.directory (yields [Sample.bob] GenStop) (Return (VBool false)))
      Sample.a_view (ustr "bob")
    = (Raise (NameError "USER_DN_FILTER"), []).
Proof. split; reflexivity. Qed.

(** C8, on the code.  With no matching record in the directory, and with
    two, [unlock] does not call the unlock operation; it makes no call at
    all, and what it raises is the [NameError] of [USER_DN_FILTER], where
    the documented exception is [ActiveDirectoryLdapException]. *)
Theorem unlock_not_unique_NameError :
  unlock Sample.objects (Sample.directory GenStop (Return (VBool true)))
    Sample.a_view (ustr "nobody")
  = (Raise (NameError "USER_DN_FILTER"), [])
  ∧ unlock Sample.objects
      (Sample.directory (yields [Sample.bob; Sample.carol] GenStop)
         (Return (VBool true)))
      Sample.a_view (ustr "b*")
    = (Raise (NameError "USER_DN_FILTER"), []).
Proof. split; reflexivity. Qed.

End ViewFacts.

(* ===================================================================== *)
(** ** Further properties of the decoders *)
(* ===================================================================== *)

Module DecodersMore.
Import Decoders DecodersFacts Terms.

Section account_control.
Context (py : interpreter) (lu : ldap_utils).

Lemma flags_of_zero items : flags_of items 0%Z = [].
Proof.
  unfold flags_of. induction items as [|[k v] rest IH]; [done|].
  simpl. by rewrite Z.land_0_r.
Qed.

(** X1. An account-control value of zero has no flag: the decoder returns
    the empty string. *)
Theorem format_userAccountControl_zero (raw : pyval) :
  int py raw = Return 0%Z →
  format_userAccountControl py lu raw = Return (VStr []).
Proof.
  intros Hint. rewrite (format_userAccountControl_parsed py lu raw 0%Z Hint).
  by rewrite flags_of_zero.
Qed.

(** X2. The flags collected for the bitwise or of two values are those
    collected for either: a name is in the result for [a | b] exactly when
    it is in the result for [a] or in the result for [b]. *)
Theorem uac_loop_union (items : list (pystr * Z)) (a b : Z) (n : pystr) :
  n ∈ uac_loop items (Z.lor a b) []
  ↔ n ∈ uac_loop items a [] ∨ n ∈ uac_loop items b [].
Proof.
  rewrite !uac_loop_flags. simpl. rewrite !flags_of_elem. split.
  - intros (v & Hin & Hbit).
    rewrite Z.land_lor_distr_r in Hbit.
    destruct (Z.eq_dec (Z.land v a) 0%Z) as [Ha|Ha].
    + right. exists v. split; [done|]. intros Hb. apply Hbit.
      apply Z.lor_eq_0_iff. done.
    + left. by exists v.
  - intros [(v & Hin & Hbit)|(v & Hin & Hbit)]; exists v; (split; [done|]);
      rewrite Z.land_lor_distr_r, Z.lor_eq_0_iff; tauto.
Qed.

(** X3. The keys of a dictionary are distinct, and so are the names the
    decoder collects: no flag is listed twice. *)
Theorem uac_loop_no_duplicate (items : list (pystr * Z)) (val : Z) :
  NoDup items.*1 → NoDup (uac_loop items val []).
Proof.
  rewrite uac_loop_flags. simpl. unfold flags_of.
  induction items as [|[k v] rest IH]; simpl; [constructor|].
  intros Hnd. apply NoDup_cons in Hnd as [Hk Hnd].
  destruct (negb _); simpl; [|by apply IH].
  apply NoDup_cons. split; [|by apply IH].
  intros Hin. apply Hk. apply list_elem_of_fmap in Hin as [[k' v'] [-> Hin]].
  apply list_elem_of_In, filter_In in Hin as [Hin _].
  apply list_elem_of_fmap. exists (k', v'). split; [done|].
  by apply list_elem_of_In.
Qed.

End account_control.

Lemma format_userAccountControl_zero_witness :
  format_userAccountControl (Sample.host LittleEndian) Sample.tables
    (VBytes (Sample.octets "0"))
  = Return (VStr []).
Proof.
  apply (format_userAccountControl_zero (Sample.host LittleEndian)
           Sample.tables (VBytes (Sample.octets "0"))).
  reflexivity.
Defined.

Lemma uac_loop_no_duplicate_witness :
  NoDup (uac_loop (USER_ACCOUNT_CONTROL Sample.tables) 514 []).
Proof.
  apply (uac_loop_no_duplicate (USER_ACCOUNT_CONTROL Sample.tables) 514).
  decide_by_evaluation.
Defined.

Section dns_record.
Context (py : interpreter) (lu : ldap_utils).

(** X4. A blob shorter than four octets is refused: [unpack] raises
    [struct.error], whatever the blob holds. *)
Theorem format_dnsrecord_short (raw : list Byte.byte) :
  (length raw < 4)%nat →
  format_dnsrecord py lu raw = Raise StructError.
Proof.
  intros Hlen. destruct raw as [|b0 [|b1 [|b2 [|b3 raw]]]]; simpl in Hlen;
    try lia; reflexivity.
Qed.

(** X5. For the record type ["A"], a data segment that is not exactly four
    octets long, because [datalen] is not 4 or because the blob ends
    early, makes [inet_ntoa] raise [OSError]. *)
Theorem format_dnsrecord_A_wrong_length (raw : list Byte.byte) datalen datatype :
  unpack_HH py (take 4 raw) = Return (datalen, datatype) →
  NoDup (DNS_TYPES lu).*2 →
  (ustr "A", datatype) ∈ DNS_TYPES lu →
  length (take (Z.to_nat datalen) (drop 24 raw)) ≠ 4%nat →
  format_dnsrecord py lu raw = Raise OSError.
Proof.
  intros Hh Hnd HA Hlen. rewrite (format_dnsrecord_header py lu raw _ _ Hh).
  rewrite (dns_loop_found py _ _ _ (ustr "A") Hnd HA).
  destruct (take (Z.to_nat datalen) (drop 24 raw))
    as [|a [|b [|c [|d [|e data]]]]]; try reflexivity.
  by destruct Hlen.
Qed.

Lemma dns_loop_value items datatype data s :
  dns_loop py items datatype data = Return (VStr s) →
  ∃ name target,
    (name, datatype) ∈ items
    ∧ dns_target py name data = Return target
    ∧ s = name ++ ustr " " ++ target.
Proof.
  induction items as [|[k v] rest IH]; simpl; [done|].
  destruct (Z.eqb_spec v datatype) as [->|_].
  - destruct (dns_target py k data) as [target|e] eqn:Ht; [|done].
    intros [= <-]. exists k, target. split; [by left|done].
  - intros Hloop. destruct (IH Hloop) as (name & target & Hin & Ht & ->).
    exists name, target. split; [by right|done].
Qed.

Lemma keep_char_spec c : keep_char c = true ↔ 31 < c ∨ c = 9.
Proof.
  unfold keep_char. rewrite orb_true_iff, N.ltb_lt, N.eqb_eq. done.
Qed.

(** X6. Whatever the blob, a string the decoder returns is the name of a
    table entry with the decoded type code, a space, and a value; for a
    type other than ["A"] the value holds no character below 32 other than
    the tab. *)
Theorem format_dnsrecord_value_is_clean (raw : list Byte.byte) (s : pystr) :
  format_dnsrecord py lu raw = Return (VStr s) →
  ∃ name datalen datatype target,
    unpack_HH py (take 4 raw) = Return (datalen, datatype)
    ∧ (name, datatype) ∈ DNS_TYPES lu
    ∧ s = name ++ ustr " " ++ target
    ∧ (name ≠ ustr "A" → Forall (λ c, 31 < c ∨ c = 9) target).
Proof.
  intros Hfmt.
  destruct (unpack_HH py (take 4 raw)) as [[datalen datatype]|e] eqn:Hh.
  - rewrite (format_dnsrecord_header py lu raw _ _ Hh) in Hfmt.
    apply dns_loop_value in Hfmt as (name & target & Hin & Ht & ->).
    exists name, datalen, datatype, target. do 3 (split; [done|]).
    intros Hname. unfold dns_target in Ht.
    rewrite bool_decide_eq_false_2 in Ht by done.
    destruct (decode_unicode_escape py _) as [d|e]; [|done].
    injection Ht as <-. apply Forall_forall. intros c Hc.
    apply list_elem_of_In, filter_In in Hc as [_ Hc]. by apply keep_char_spec.
  - unfold format_dnsrecord in Hfmt. by rewrite Hh in Hfmt.
Qed.

(** X7. For a type other than ["A"], an empty data segment, when [datalen]
    is zero or the blob has no more than its 24 header octets, gives the
    type name followed by a space. *)
Theorem format_dnsrecord_empty_data (raw : list Byte.byte) name datalen datatype :
  unpack_HH py (take 4 raw) = Return (datalen, datatype) →
  NoDup (DNS_TYPES lu).*2 →
  (name, datatype) ∈ DNS_TYPES lu →
  name ≠ ustr "A" →
  datalen = 0%Z ∨ (length raw ≤ 24)%nat →
  format_dnsrecord py lu raw = Return (VStr (name ++ ustr " ")).
Proof.
  intros Hh Hnd Hin Hname Hempty.
  rewrite (format_dnsrecord_header py lu raw _ _ Hh).
  rewrite (dns_loop_found py _ _ _ name Hnd Hin).
  assert (take (Z.to_nat datalen) (drop 24 raw) = []) as ->.
  { destruct Hempty as [->|Hlen]; [done|]. rewrite drop_ge by lia.
    apply take_nil. }
  unfold dns_target. rewrite bool_decide_eq_false_2 by done.
  reflexivity.
Qed.

Lemma ue_run_plain_app p rest :
  Forall (λ b, Byte.to_N b ≠ 92) p →
  ue_run py UeText (p ++ rest)
  = (λ out, map Byte.to_N p ++ out) <$> ue_run py UeText rest.
Proof.
  induction 1 as [|b p Hb _ IH]; simpl.
  - by destruct (ue_run py UeText rest).
  - unfold ue_text. apply N.eqb_neq in Hb. rewrite Hb, IH.
    by destruct (ue_run py UeText rest).
Qed.

(** X8. For a type other than ["A"], a data segment that ends in a lone
    backslash after text without backslashes makes the codec raise
    [UnicodeDecodeError]. *)
Theorem format_dnsrecord_trailing_backslash (raw : list Byte.byte)
    name datalen datatype text :
  unpack_HH py (take 4 raw) = Return (datalen, datatype) →
  NoDup (DNS_TYPES lu).*2 →
  (name, datatype) ∈ DNS_TYPES lu →
  name ≠ ustr "A" →
  take (Z.to_nat datalen) (drop 24 raw) = text ++ [backslash] →
  Forall (λ b, Byte.to_N b ≠ 92) text →
  format_dnsrecord py lu raw = Raise UnicodeDecodeError.
Proof.
  intros Hh Hnd Hin Hname Hdata Htext.
  rewrite (format_dnsrecord_header py lu raw _ _ Hh).
  rewrite (dns_loop_found py _ _ _ name Hnd Hin), Hdata.
  unfold dns_target. rewrite bool_decide_eq_false_2 by done.
  unfold decode_unicode_escape. by rewrite (ue_run_plain_app _ _ Htext).
Qed.

Lemma double_backslashes_cons b data :
  double_backslashes (b :: data)
  = (if Byte.to_N b =? 92 then [b; b] else [b]) ++ double_backslashes data.
Proof. reflexivity. Qed.

Lemma ue_run_doubled data :
  ue_run py UeText (double_backslashes data) = Some (map Byte.to_N data).
Proof.
  induction data as [|b data IH]; [done|].
  rewrite double_backslashes_cons.
  destruct (Byte.to_N b =? 92) eqn:Hb.
  - cbn [app ue_run ue_step]. unfold ue_text. rewrite Hb.
    apply N.eqb_eq in Hb.
    change (ue_step py UeBackslash b) with (Some (ue_backslash (Byte.to_N b))).
    rewrite Hb. change (ue_backslash 92) with (UeText, [92]).
    cbv beta iota. rewrite IH. cbn [map]. by rewrite Hb.
  - cbn [app ue_run ue_step]. unfold ue_text. by rewrite Hb, IH.
Qed.

(** X9. For a type other than ["A"], a data segment written with every
    backslash doubled decodes to the octets it was written from: each
    stands for the code point of the same value, the backslash too, and
    the characters above 31 and the tab are kept. *)
Theorem format_dnsrecord_doubled_backslashes (raw : list Byte.byte)
    name datalen datatype data :
  unpack_HH py (take 4 raw) = Return (datalen, datatype) →
  NoDup (DNS_TYPES lu).*2 →
  (name, datatype) ∈ DNS_TYPES lu →
  name ≠ ustr "A" →
  take (Z.to_nat datalen) (drop 24 raw) = double_backslashes data →
  format_dnsrecord py lu raw
  = Return (VStr (name ++ ustr " " ++ octetwise data)).
Proof.
  intros Hh Hnd Hin Hname Hdata.
  rewrite (format_dnsrecord_header py lu raw _ _ Hh).
  rewrite (dns_loop_found py _ _ _ name Hnd Hin), Hdata.
  unfold dns_target. rewrite bool_decide_eq_false_2 by done.
  unfold decode_unicode_escape. by rewrite ue_run_doubled.
Qed.

(** X10. The decoder reads the first four octets and the data segment and
    nothing else: two blobs with the same four octets and the same data
    segment, whatever their octets 4 to 23 and whatever follows the
    segment, decode alike. *)
Theorem format_dnsrecord_reads_header_and_data
    (hdr mid mid' data rest rest' : list Byte.byte) datalen datatype :
  unpack_HH py hdr = Return (datalen, datatype) →
  length mid = 20%nat → length mid' = 20%nat →
  Z.to_nat datalen = length data →
  format_dnsrecord py lu (hdr ++ mid ++ data ++ rest)
  = format_dnsrecord py lu (hdr ++ mid' ++ data ++ rest').
Proof.
  intros Hh Hmid Hmid' Hlen.
  assert (length hdr = 4%nat) as Hhdr.
  { destruct hdr as [|b0 [|b1 [|b2 [|b3 [|b4 hdr]]]]]; done. }
  assert (∀ m r, length m = 20%nat →
            format_dnsrecord py lu (hdr ++ m ++ data ++ r)
            = dns_loop py (DNS_TYPES lu) datatype data) as Hone.
  { intros m r Hm.
    rewrite (format_dnsrecord_header py lu _ datalen datatype).
    - f_equal. rewrite (app_assoc hdr m).
      rewrite drop_app_length' by (rewrite length_app; lia).
      by rewrite Hlen, take_app_length.
    - by rewrite take_app_length'. }
  by rewrite (Hone mid rest Hmid), (Hone mid' rest' Hmid').
Qed.

End dns_record.

Lemma format_dnsrecord_short_witness :
  format_dnsrecord (Sample.host LittleEndian) Sample.tables
    (map Sample.octet [4; 0; 1])
  = Raise StructError.
Proof.
  apply (format_dnsrecord_short (Sample.host LittleEndian) Sample.tables
           (map Sample.octet [4; 0; 1])).
  simpl. lia.
Defined.

Lemma format_dnsrecord_A_wrong_length_witness :
  format_dnsrecord (Sample.host LittleEndian) Sample.tables
    (Sample.blob 3 0 1 0 (map Sample.octet [192; 168; 1]))
  = Raise OSError.
Proof.
  apply (format_dnsrecord_A_wrong_length (Sample.host LittleEndian)
           Sample.tables
           (Sample.blob 3 0 1 0 (map Sample.octet [192; 168; 1])) 3%Z 1%Z).
  - reflexivity.
  - decide_by_evaluation.
  - decide_by_evaluation.
  - vm_compute. lia.
Defined.

Lemma format_dnsrecord_value_is_clean_witness :
  ∃ name datalen datatype target,
    unpack_HH (Sample.host LittleEndian)
      (take 4 (Sample.blob 4 0 16 0 (map Sample.octet [0; 97; 9; 98])))
    = Return (datalen, datatype)
    ∧ (name, datatype) ∈ DNS_TYPES Sample.tables
    ∧ ustr "TXT " ++ [97; 9; 98] = name ++ ustr " " ++ target
    ∧ (name ≠ ustr "A" → Forall (λ c, 31 < c ∨ c = 9) target).
Proof.
  apply (format_dnsrecord_value_is_clean (Sample.host LittleEndian)
           Sample.tables
           (Sample.blob 4 0 16 0 (map Sample.octet [0; 97; 9; 98]))
           (ustr "TXT " ++ [97; 9; 98])).
  reflexivity.
Defined.

Lemma format_dnsrecord_empty_data_witness :
  format_dnsrecord (Sample.host LittleEndian) Sample.tables
    (Sample.blob 0 0 16 0 [])
  = Return (VStr (ustr "TXT ")).
Proof.
  apply (format_dnsrecord_empty_data (Sample.host LittleEndian) Sample.tables
           (Sample.blob 0 0 16 0 []) (ustr "TXT") 0%Z 16%Z).
  - reflexivity.
  - decide_by_evaluation.
  - decide_by_evaluation.
  - decide_by_evaluation.
  - left. reflexivity.
Defined.

Lemma format_dnsrecord_trailing_backslash_witness :
  format_dnsrecord (Sample.host LittleEndian) Sample.tables
    (Sample.blob 3 0 16 0 (Sample.octets "ab\"))
  = Raise UnicodeDecodeError.
Proof.
  apply (format_dnsrecord_trailing_backslash (Sample.host LittleEndian)
           Sample.tables (Sample.blob 3 0 16 0 (Sample.octets "ab\"))
           (ustr "TXT") 3%Z 16%Z (Sample.octets "ab")).
  - reflexivity.
  - decide_by_evaluation.
  - decide_by_evaluation.
  - decide_by_evaluation.
  - reflexivity.
  - decide_by_evaluation.
Defined.

Lemma format_dnsrecord_doubled_backslashes_witness :
  format_dnsrecord (Sample.host LittleEndian) Sample.tables
    (Sample.blob 4 0 16 0 (Sample.octets "a\\b"))
  = Return (VStr (ustr "TXT a\b")).
Proof.
  apply (format_dnsrecord_doubled_backslashes (Sample.host LittleEndian)
           Sample.tables (Sample.blob 4 0 16 0 (Sample.octets "a\\b"))
           (ustr "TXT") 4%Z 16%Z (Sample.octets "a\b")).
  - reflexivity.
  - decide_by_evaluation.
  - decide_by_evaluation.
  - decide_by_evaluation.
  - reflexivity.
Defined.

Lemma format_dnsrecord_reads_header_and_data_witness :
  format_dnsrecord (Sample.host LittleEndian) Sample.tables
    (map Sample.octet [2; 0; 16; 0] ++ replicate 20 Byte.x00
     ++ Sample.octets "ab" ++ [])
  = format_dnsrecord (Sample.host LittleEndian) Sample.tables
      (map Sample.octet [2; 0; 16; 0] ++ replicate 20 Byte.xff
       ++ Sample.octets "ab" ++ Sample.octets "trailing").
Proof.
  apply (format_dnsrecord_reads_header_and_data (Sample.host LittleEndian)
           Sample.tables (map Sample.octet [2; 0; 16; 0])
           (replicate 20 Byte.x00) (replicate 20 Byte.xff)
           (Sample.octets "ab") [] (Sample.octets "trailing") 2%Z 16%Z);
    reflexivity.
Defined.

End DecodersMore.

(* ===================================================================== *)
(** ** Further properties of the view *)
(* ===================================================================== *)

Module ViewMore.
Import View ViewFacts Terms Formatters.

Section search.
Context (l3 : ldap3) (self : view).
Implicit Types (ldapfilter : pystr) (attributes : list pystr)
  (base : option pystr) (scope : option ldap_scope) (es : list entry)
  (rs : list record).

Lemma query_of_entries ldapfilter attributes base scope es :
  search_generator l3 self ldapfilter base scope = yields es GenStop →
  query l3 self ldapfilter attributes base scope
  = (Return (omap record_of es),
     [search_event self ldapfilter attributes base scope]).
Proof.
  intros Hgen. apply query_returns. by rewrite Hgen, query_loop_yields.
Qed.

Lemma query_of_failure ldapfilter attributes base scope es e :
  search_generator l3 self ldapfilter base scope
    = yields es (GenRaise (LDAPError e)) →
  is_LDAPOperationResult e = true →
  query l3 self ldapfilter attributes base scope
  = (Raise (ActiveDirectoryLdapException (inr e)),
     [search_event self ldapfilter attributes base scope]).
Proof.
  intros Hgen Hop. unfold query, call. rewrite Hgen, query_loop_yields.
  simpl. by rewrite Hop.
Qed.

(** X11. An exception of the paged search that is not an
    [LDAPOperationResult], such as a communication failure, is not
    wrapped: [query] raises it as it is, whatever entries came before. *)
Theorem query_other_error ldapfilter attributes base scope es e :
  search_generator l3 self ldapfilter base scope = yields es (GenRaise e) →
  (∀ le, e = LDAPError le → is_LDAPOperationResult le = false) →
  (query l3 self ldapfilter attributes base scope).1 = Raise e.
Proof.
  intros Hgen Hother. unfold query, call. rewrite Hgen, query_loop_yields.
  simpl. destruct e as [| | | | | | | | |le| | |]; try done.
  by rewrite (Hother le eq_refl).
Qed.

Lemma records_match es :
  Forall2 record_matches (omap record_of es) (List.filter has_dn es).
Proof.
  induction es as [|[dn attrs|uri] es IH]; simpl; [constructor| |done].
  constructor; [|done]. exists dn, attrs. split; [done|]. split.
  - apply lookup_insert_eq.
  - intros k Hk. by apply lookup_insert_ne.
Qed.

(** X12. A record [query] returns differs from the attributes of its entry
    at the key ["dn"] only: that key holds the distinguished name of the
    envelope, also when the attributes held a ["dn"] of their own, and
    every other key holds what the attributes held. *)
Theorem query_keeps_attributes ldapfilter attributes base scope es :
  search_generator l3 self ldapfilter base scope = yields es GenStop →
  ∃ rs,
    (query l3 self ldapfilter attributes base scope).1 = Return rs
    ∧ Forall2 record_matches rs (List.filter has_dn es).
Proof.
  intros Hgen. exists (omap record_of es).
  rewrite (query_of_entries _ attributes _ _ _ Hgen).
  split; [done|apply records_match].
Qed.

(** X13. When every entry of the search carries a distinguished name,
    [query] returns as many records as the search yielded entries. *)
Theorem query_loses_no_entry ldapfilter attributes base scope es :
  search_generator l3 self ldapfilter base scope = yields es GenStop →
  Forall (λ e, has_dn e = true) es →
  ∃ rs,
    (query l3 self ldapfilter attributes base scope).1 = Return rs
    ∧ length rs = length es.
Proof.
  intros Hgen Hall. exists (omap record_of es).
  rewrite (query_of_entries _ attributes _ _ _ Hgen). split; [done|].
  clear Hgen. induction Hall as [|[dn attrs|uri] es Hdn _ IH]; simpl;
    [done| |done].
  f_equal. exact IH.
Qed.

End search.

Section resolvers.
Context (lu : ldap_utils) (l3 : ldap3) (self : view).

Lemma resolve_guid_queried guid rs :
  validate_guid l3 guid = Return true →
  query_loop
    (search_generator l3 self (ustr "(&(ObjectGUID=" ++ guid ++ ustr "))")
       None None) []
    = Return rs →
  resolve_guid l3 self guid
  = (match rs with
     | [] => Raise (ActiveDirectoryLdapInvalidGUID (ustr "GUID: " ++ guid))
     | _ => Return rs
     end,
     [search_event self (ustr "(&(ObjectGUID=" ++ guid ++ ustr "))")
        ALL None None]).
Proof.
  intros Hvalid Hloop. unfold resolve_guid. rewrite Hvalid.
  cbn [pure mbind io_bind].
  rewrite (query_returns l3 self _ ALL None None rs Hloop).
  by destruct rs.
Qed.

(** X14. [resolve_guid] by cases.  A GUID that validation refuses raises
    [ActiveDirectoryLdapInvalidGUID] and no query is made.  One that it
    accepts is queried once, by the filter [(&(ObjectGUID=...))]: an empty
    result raises the same exception, and a result of one record or more
    is returned whole. *)
Theorem resolve_guid_cases (guid : pystr) :
  (validate_guid l3 guid = Return false →
     resolve_guid l3 self guid
     = (Raise (ActiveDirectoryLdapInvalidGUID (ustr "GUID: " ++ guid)), []))
  ∧ (∀ rs,
       validate_guid l3 guid = Return true →
       query_loop
         (search_generator l3 self
            (ustr "(&(ObjectGUID=" ++ guid ++ ustr "))") None None) []
         = Return rs →
       (resolve_guid l3 self guid).2
         = [search_event self (ustr "(&(ObjectGUID=" ++ guid ++ ustr "))")
              ALL None None]
       ∧ (rs = [] →
          (resolve_guid l3 self guid).1
          = Raise (ActiveDirectoryLdapInvalidGUID (ustr "GUID: " ++ guid)))
       ∧ (rs ≠ [] → (resolve_guid l3 self guid).1 = Return rs)).
Proof.
  split.
  - intros Hvalid. unfold resolve_guid. by rewrite Hvalid.
  - intros rs Hvalid Hloop. rewrite (resolve_guid_queried guid rs Hvalid Hloop).
    split; [done|]. split; [by intros ->|]. by destruct rs.
Qed.

(** X15. A search that fails with an [LDAPOperationResult] does not look
    like a missing object: [resolve_sid], for a SID off the table that
    validation accepts, and [resolve_guid], for a GUID that validation
    accepts, raise the [ActiveDirectoryLdapException] of [query], not
    their own exceptions. *)
Theorem resolvers_pass_search_failure (sid guid : pystr) es es' e e' :
  WELL_KNOWN_SIDs lu !! sid = None →
  validate_sid l3 sid = Return true →
  search_generator l3 self (sid_filter sid) None None
    = yields es (GenRaise (LDAPError e)) →
  is_LDAPOperationResult e = true →
  validate_guid l3 guid = Return true →
  search_generator l3 self (ustr "(&(ObjectGUID=" ++ guid ++ ustr "))")
      None None
    = yields es' (GenRaise (LDAPError e')) →
  is_LDAPOperationResult e' = true →
  (resolve_sid lu l3 self sid).1
    = Raise (ActiveDirectoryLdapException (inr e))
  ∧ (resolve_guid l3 self guid).1
    = Raise (ActiveDirectoryLdapException (inr e')).
Proof.
  intros Hwk Hsid Hgen Hop Hguid Hgen' Hop'. split.
  - unfold resolve_sid. rewrite Hwk, Hsid. cbn [pure mbind io_bind].
    by rewrite (query_of_failure l3 self _ ALL None None es e Hgen Hop).
  - unfold resolve_guid. rewrite Hguid. cbn [pure mbind io_bind].
    by rewrite (query_of_failure l3 self _ ALL None None es' e' Hgen' Hop').
Qed.



Lemma load_global_unbound (name : string) :
  name ∉ module_globals → load_global name = Raise (NameError name).
Proof.
  intros Hname. unfold load_global, global_name.
  by rewrite bool_decide_eq_false_2.
Qed.

(** X17. Whatever the user name and whatever the directory holds,
    [unlock] raises the [NameError] of [USER_DN_FILTER], the bare name of
    line 187 that no scope of the method binds, and makes no call: no
    search, no log message, no unlock operation. *)
Theorem unlock_unbound_filter (ob : objects) (username : pystr) :
  unlock ob l3 self username = (Raise (NameError "USER_DN_FILTER"), []).
Proof.
  unfold unlock.
  rewrite (load_global_unbound "USER_DN_FILTER") by decide_by_evaluation.
  reflexivity.
Qed.

End resolvers.

Section constructor.
Context (l3 : ldap3).

(** Runs the constructor up to the call of [bind], for a method it knows. *)
Ltac init_to_bind Hc :=
  destruct Hc; unfold init;
  [ rewrite bool_decide_eq_true_2 by done
  | rewrite bool_decide_eq_false_2 by (vm_compute; discriminate);
    rewrite bool_decide_eq_true_2 by done ];
  unfold call; cbn [mbind io_bind pure].

Lemma split_dot_label label rest cur :
  Forall (λ c, c ≠ 46) label →
  split_dot (label ++ rest) cur = split_dot rest (cur ++ label).
Proof.
  intros Hlabel. revert cur.
  induction Hlabel as [|c label Hc _ IH]; intros cur; simpl.
  - by rewrite app_nil_r.
  - apply N.eqb_neq in Hc. rewrite Hc, IH. by rewrite <- app_assoc.
Qed.

Lemma split_dot_join label labels :
  Forall (Forall (λ c, c ≠ 46)) (label :: labels) →
  split_dot (join (ustr ".") (label :: labels)) [] = label :: labels.
Proof.
  revert label. induction labels as [|l labels IH]; intros label Hall.
  - apply Forall_cons in Hall as [Hl _]. simpl.
    rewrite <- (app_nil_r label) at 1. by rewrite split_dot_label.
  - apply Forall_cons in Hall as [Hl Hall].
    change (join (ustr ".") (label :: l :: labels))
      with (label ++ [46] ++ join (ustr ".") (l :: labels)).
    rewrite split_dot_label by done. rewrite app_nil_l.
    change (split_dot ([46] ++ join (ustr ".") (l :: labels)) label)
      with (label :: split_dot (join (ustr ".") (l :: labels)) []).
    by rewrite IH.
Qed.

(** X19. With a method it knows and a [bind] that returns [True], the
    constructor creates one connection, binds it once and returns the
    view on it.  The base of the searches is the [base] given when that is
    not empty; otherwise it is made from the labels of the domain name,
    [dc=l1,dc=l2,...] for the name [l1.l2. ...]. *)
Theorem init_base_dn server base username password method c label labels :
  connection_for server (join (ustr ".") (label :: labels)) username password
    method c →
  bind l3 c = Return true →
  Forall (Forall (λ c, c ≠ 46)) (label :: labels) →
  ∃ v,
    init l3 server (join (ustr ".") (label :: labels)) base username password
      method
    = (Return v, [EvConnection c; EvBind c])
    ∧ ldap v = c
    ∧ search_scope v = SUBTREE
    ∧ (base ≠ [] → base_dn v = base)
    ∧ (base = [] → base_dn v = dc_of_labels (label :: labels)).
Proof.
  intros Hc Hbind Hlabels.
  init_to_bind Hc; rewrite Hbind; cbn [mbind io_bind pure negb mret io_ret app];
    (eexists; split; [reflexivity|]); cbn [ldap search_scope base_dn];
    (split; [done|]); (split; [done|]); (split; [by destruct base|]);
    intros ->; unfold str_or; fold (dc_of_labels (split_dot
      (join (ustr ".") (label :: labels)) []));
    by rewrite split_dot_join.
Qed.

(** X20. With a method it knows, the constructor creates the connection
    and binds it once.  When [bind] returns [False] it raises the
    [NameError] of the bare name [ActiveDirectoryLdapException], which no
    scope of the method binds; when [bind] raises, that exception is
    raised as it is. *)
Theorem init_bind_refused server fqdn base username password method c :
  connection_for server fqdn username password method c →
  (bind l3 c = Return false →
     init l3 server fqdn base username password method
     = (Raise (NameError "ActiveDirectoryLdapException"),
        [EvConnection c; EvBind c]))
  ∧ (∀ e, bind l3 c = Raise e →
       init l3 server fqdn base username password method
       = (Raise e, [EvConnection c; EvBind c])).
Proof.
  intros Hc. init_to_bind Hc; (split; [intros Hbind|intros e Hbind]);
    by rewrite Hbind.
Qed.

End constructor.

(** X21. After the two assignments the module makes at import, the OID of
    [userAccountControl] has the decoder [format_userAccountControl] and
    the OID of [dnsRecord] has [format_dnsrecord], each with no validator
    and whatever the table held for them before; every other OID has what
    it had. *)
Theorem register_overwrites (standard_formatter : formatter_table) :
  register standard_formatter !! OID_userAccountControl
    = Some (FormatUserAccountControl, None)
  ∧ register standard_formatter !! OID_dnsRecord = Some (FormatDnsRecord, None)
  ∧ ∀ oid, oid ≠ OID_userAccountControl → oid ≠ OID_dnsRecord →
      register standard_formatter !! oid = standard_formatter !! oid.
Proof.
  unfold register. split; [|split].
  - rewrite lookup_insert_ne by (vm_compute; discriminate).
    apply lookup_insert_eq.
  - apply lookup_insert_eq.
  - intros oid H1 H2. by rewrite !lookup_insert_ne.
Qed.

Lemma query_other_error_witness :
  (query (Sample.directory
            (yields [Sample.bob] (GenRaise (LDAPError LDAPCommunicationError)))
            (Return (VBool true)))
     Sample.a_view (ustr "(objectClass=user)") ALL None None).1
  = Raise (LDAPError LDAPCommunicationError).
Proof.
  apply (query_other_error
           (Sample.directory
              (yields [Sample.bob]
                 (GenRaise (LDAPError LDAPCommunicationError)))
              (Return (VBool true)))
           Sample.a_view (ustr "(objectClass=user)") ALL None None
           [Sample.bob] (LDAPError LDAPCommunicationError)).
  - reflexivity.
  - intros le [= <-]. reflexivity.
Defined.

Lemma query_keeps_attributes_witness :
  ∃ rs,
    (query (Sample.directory (yields [Sample.referral; Sample.carol] GenStop)
              (Return (VBool true)))
       Sample.a_view (ustr "(objectClass=user)") ALL None None).1
    = Return rs
    ∧ Forall2 record_matches rs [Sample.carol].
Proof.
  apply (query_keeps_attributes
           (Sample.directory (yields [Sample.referral; Sample.carol] GenStop)
              (Return (VBool true)))
           Sample.a_view (ustr "(objectClass=user)") ALL None None
           [Sample.referral; Sample.carol]).
  reflexivity.
Defined.

Lemma query_loses_no_entry_witness :
  ∃ rs,
    (query (Sample.directory (yields [Sample.bob; Sample.carol] GenStop)
              (Return (VBool true)))
       Sample.a_view (ustr "(objectClass=user)") ALL None None).1
    = Return rs
    ∧ length rs = 2%nat.
Proof.
  apply (query_loses_no_entry
           (Sample.directory (yields [Sample.bob; Sample.carol] GenStop)
              (Return (VBool true)))
           Sample.a_view (ustr "(objectClass=user)") ALL None None
           [Sample.bob; Sample.carol]).
  - reflexivity.
  - repeat constructor.
Defined.

Lemma resolve_guid_cases_witness :
  (resolve_guid
     (Sample.directory (yields [Sample.bob] GenStop) (Return (VBool true)))
     Sample.a_view (ustr "0f1e2d3c-4b5a-6978-8796-a5b4c3d2e1f0")).1
  = Return [ {[ ustr "cn" := VStr (ustr "bob");
                ustr "dn" := VStr (ustr "CN=bob,DC=corp,DC=example") ]} ]
  ∧ (resolve_guid
       (Sample.directory (yields [Sample.referral] GenStop)
          (Return (VBool true)))
       Sample.a_view (ustr "0f1e2d3c-4b5a-6978-8796-a5b4c3d2e1f0")).1
    = Raise (ActiveDirectoryLdapInvalidGUID
               (ustr "GUID: 0f1e2d3c-4b5a-6978-8796-a5b4c3d2e1f0")).
Proof.
  split.
  - destruct (resolve_guid_cases
                (Sample.directory (yields [Sample.bob] GenStop)
                   (Return (VBool true)))
                Sample.a_view (ustr "0f1e2d3c-4b5a-6978-8796-a5b4c3d2e1f0"))
      as [_ H].
    destruct (H [ {[ ustr "cn" := VStr (ustr "bob");
                     ustr "dn" := VStr (ustr "CN=bob,DC=corp,DC=example") ]} ]
                eq_refl eq_refl) as (_ & _ & Hsome).
    apply Hsome. discriminate.
  - destruct (resolve_guid_cases
                (Sample.directory (yields [Sample.referral] GenStop)
                   (Return (VBool true)))
                Sample.a_view (ustr "0f1e2d3c-4b5a-6978-8796-a5b4c3d2e1f0"))
      as [_ H].
    destruct (H [] eq_refl eq_refl) as (_ & Hnone & _).
    apply Hnone. reflexivity.
Defined.

Lemma resolvers_pass_search_failure_witness :
  (resolve_sid Sample.tables
     (Sample.directory (GenRaise (LDAPError LDAPNoSuchObjectResult))
        (Return (VBool true)))
     Sample.a_view (ustr "S-1-5-21-1-2-3-1105")).1
  = Raise (ActiveDirectoryLdapException (inr LDAPNoSuchObjectResult))
  ∧ (resolve_guid
       (Sample.directory (GenRaise (LDAPError LDAPNoSuchObjectResult))
          (Return (VBool true)))
       Sample.a_view (ustr "0f1e2d3c-4b5a-6978-8796-a5b4c3d2e1f0")).1
    = Raise (ActiveDirectoryLdapException (inr LDAPNoSuchObjectResult)).
Proof.
  apply (resolvers_pass_search_failure Sample.tables
           (Sample.directory (GenRaise (LDAPError LDAPNoSuchObjectResult))
              (Return (VBool true)))
           Sample.a_view (ustr "S-1-5-21-1-2-3-1105")
           (ustr "0f1e2d3c-4b5a-6978-8796-a5b4c3d2e1f0")
           [] [] LDAPNoSuchObjectResult LDAPNoSuchObjectResult);
    reflexivity.
Defined.


Lemma init_base_dn_witness :
  ∃ v,
    init (Sample.directory GenStop (Return (VBool true)))
      (ustr "dc01.corp.example") (ustr "corp.example") [] (ustr "alice")
      (ustr "secret") (ustr "NTLM")
    = (Return v,
       [EvConnection (ldap Sample.a_view); EvBind (ldap Sample.a_view)])
    ∧ base_dn v = ustr "dc=corp,dc=example".
Proof.
  destruct (init_base_dn (Sample.directory GenStop (Return (VBool true)))
              (ustr "dc01.corp.example") [] (ustr "alice") (ustr "secret")
              (ustr "NTLM") (ldap Sample.a_view) (ustr "corp")
              [ustr "example"])
    as (v & Hinit & _ & _ & _ & Hbase).
  - apply connection_for_ntlm.
  - reflexivity.
  - decide_by_evaluation.
  - exists v. split; [exact Hinit|]. apply Hbase. reflexivity.
Defined.

Lemma init_bind_refused_witness :
  init Sample.refusing (ustr "dc01.corp.example") (ustr "corp.example") []
    (ustr "alice") (ustr "secret") (ustr "Kerberos")
  = (Raise (NameError "ActiveDirectoryLdapException"),
     [EvConnection (ConnectionKerberos (ustr "dc01.corp.example"));
      EvBind (ConnectionKerberos (ustr "dc01.corp.example"))]).
Proof.
  destruct (init_bind_refused Sample.refusing (ustr "dc01.corp.example")
              (ustr "corp.example") [] (ustr "alice") (ustr "secret")
              (ustr "Kerberos")
              (ConnectionKerberos (ustr "dc01.corp.example")))
    as [Hrefused _].
  - apply connection_for_kerberos.
  - apply Hrefused. reflexivity.
Defined.

Lemma register_overwrites_witness :
  register {[ OID_dnsRecord := (Ldap3Formatter "format_binary", None);
              ustr "1.2.840.113556.1.4.903"
                := (Ldap3Formatter "format_binary", None) ]}
    !! ustr "1.2.840.113556.1.4.903"
  = Some (Ldap3Formatter "format_binary", None)
  ∧ register {[ OID_dnsRecord := (Ldap3Formatter "format_binary", None) ]}
      !! OID_dnsRecord
    = Some (FormatDnsRecord, None).
Proof.
  split.
  - destruct (register_overwrites
                {[ OID_dnsRecord := (Ldap3Formatter "format_binary", None);
                   ustr "1.2.840.113556.1.4.903"
                     := (Ldap3Formatter "format_binary", None) ]})
      as (_ & _ & H).
    rewrite H; [reflexivity| |]; vm_compute; discriminate.
  - apply (register_overwrites
             {[ OID_dnsRecord := (Ldap3Formatter "format_binary", None) ]}).
Defined.

End ViewMore.
